(** * astroplan.target: targets and [get_skycoord]

    A shallow embedding of [astroplan/target.py]: the target classes, the
    [ra]/[dec] properties, the offline name table [_from_name_mock] and the
    coordinate resolution routine [get_skycoord].

    Python exceptions are values of [exn]; a computation that may raise has
    type [result A].  The astropy objects the code inspects ([Time],
    [SkyCoord], frames, quantities) are modelled by the attributes the code
    reads from them; the two astropy computations the code only calls
    ([get_body] and the conversion [.icrs]) are parameters of the section
    that holds [get_skycoord]. *)

From Stdlib Require Import List String Ascii Bool Arith ZArith QArith Lia.
Import ListNotations.

Local Open Scope string_scope.
Local Open Scope list_scope.
Local Open Scope nat_scope.

(** ** Python exceptions and the error monad *)

Inductive exn : Type :=
| ValueError (msg : string)
| TypeError (msg : string)
| AttributeError (attr : string)      (* object has no attribute [attr] *)
| IndexError
| KeyError (key : string)
| NotImplementedError
| UnitConversionError                 (* astropy.units: no conversion
                                         between two units *)
| ConstructorError.                   (* raised inside [SkyCoord(...)] on
                                         arguments that make no position *)

Inductive result (A : Type) : Type :=
| Ok (a : A)
| Raise (e : exn).

Arguments Ok {A} a.
Arguments Raise {A} e.

Definition bind {A B : Type} (m : result A) (k : A -> result B) : result B :=
  match m with
  | Ok a => k a
  | Raise e => Raise e
  end.

Notation "x <- m ;; k" := (bind m (fun x => k))
  (at level 61, m at next level, right associativity).

(** ** Python strings: [str.lower] on ASCII text *)

Definition lower_ascii (c : ascii) : ascii :=
  let n := nat_of_ascii c in
  if (65 <=? n) && (n <=? 90) then ascii_of_nat (n + 32) else c.

Fixpoint lower (s : string) : string :=
  match s with
  | EmptyString => EmptyString
  | String c s' => String (lower_ascii c) (lower s')
  end.

(** Python's builtins [all] and [any] on a list of booleans. *)
Definition all (l : list bool) : bool := forallb (fun b => b) l.
Definition any (l : list bool) : bool := existsb (fun b => b) l.

(** ** astropy values read by the module *)

(** Units of the quantities that occur as distances. *)
Inductive Unit : Type := dimensionless | kpc | pc | AU.

Record Quantity : Type := mkQuantity { value : Q; unit : Unit }.

(** [q != 1]: a quantity is compared with a bare number through a conversion
    to its own unit; with a unit of length the conversion fails and [!=]
    answers [True]. *)
Definition ne_one (q : Quantity) : bool :=
  match unit q with
  | dimensionless => negb (Qeq_bool (value q) 1)
  | _ => true
  end.

(** [100*u.kpc] *)
Definition sentinel_distance : Quantity := mkQuantity 100 kpc.

(** [astropy.time.Time]: a scalar instant or an array of instants. *)
Inductive Time : Type :=
| TimeScalar (t : Z)
| TimeArray (ts : list Z).

Definition Time_size (tm : Time) : nat :=
  match tm with
  | TimeScalar _ => 1
  | TimeArray ts => List.length ts
  end.

(** [tm[i]] *)
Definition Time_getitem (tm : Time) (i : nat) : result Time :=
  match tm with
  | TimeScalar _ => Raise (TypeError "scalar Time object does not support indexing")
  | TimeArray ts =>
      match nth_error ts i with
      | Some t => Ok (TimeScalar t)
      | None => Raise IndexError
      end
  end.

Record EarthLocation : Type :=
  mkEarthLocation { loc_lon : Q; loc_lat : Q; loc_height : Q }.

(** [astroplan.Observer]: [get_skycoord] reads its [location] only. *)
Record Observer : Type :=
  mkObserver { location : EarthLocation; observer_name : option string }.

(** Coordinate frames, with the attributes that make two frames differ. *)
Inductive Frame : Type :=
| ICRS
| Galactic
| AltAz (obstime : Time) (loc : EarthLocation).

Definition Time_eqb (a b : Time) : bool :=
  match a, b with
  | TimeScalar x, TimeScalar y => Z.eqb x y
  | TimeArray xs, TimeArray ys =>
      (List.length xs =? List.length ys) &&
      forallb (fun p => Z.eqb (fst p) (snd p)) (combine xs ys)
  | _, _ => false
  end.

Definition EarthLocation_eqb (a b : EarthLocation) : bool :=
  Qeq_bool (loc_lon a) (loc_lon b) && Qeq_bool (loc_lat a) (loc_lat b)
  && Qeq_bool (loc_height a) (loc_height b).

(** [f.is_equivalent_frame(g)]: same class and same frame attributes. *)
Definition is_equivalent_frame (f g : Frame) : bool :=
  match f, g with
  | ICRS, ICRS => true
  | Galactic, Galactic => true
  | AltAz t1 l1, AltAz t2 l2 => Time_eqb t1 t2 && EarthLocation_eqb l1 l2
  | _, _ => false
  end.

(** Names of the two angles of a frame
    ([frame_specific_representation_info]). *)
Definition lon_lat_names (f : Frame) : string * string :=
  match f with
  | ICRS => ("ra", "dec")
  | Galactic => ("l", "b")
  | AltAz _ _ => ("az", "alt")
  end.

(** A frame whose attributes are scalars: its [obstime] is no array. *)
Definition scalar_frame (f : Frame) : bool :=
  match f with
  | AltAz (TimeArray _) _ => false
  | _ => true
  end.

(** A [SkyCoord] built from one pair of angles: frame, the two angles in
    degrees, and the distance of its data; [dist = None] is a
    [UnitSphericalRepresentation].  It is a scalar when its frame is; with a
    frame that holds an array of [n] obstimes it has shape [(n,)] and stands
    for [n] positions, one per obstime. *)
Record SkyCoord : Type :=
  mkSkyCoord { frame : Frame; lon : Q; lat : Q; dist : option Quantity }.

(** [x.data.__class__ is UnitSphericalRepresentation] *)
Definition is_unitspherical (c : SkyCoord) : bool :=
  match dist c with
  | None => true
  | Some _ => false
  end.

(** [c.distance]: an angle-only position reports the dimensionless 1. *)
Definition distance (c : SkyCoord) : Quantity :=
  match dist c with
  | Some d => d
  | None => mkQuantity 1 dimensionless
  end.

(** [getattr(c, name)] for the name of an angle. *)
Definition SkyCoord_getattr (c : SkyCoord) (name : string) : result Q :=
  let (lon_name, lat_name) := lon_lat_names (frame c) in
  if String.eqb name lon_name then Ok (lon c)
  else if String.eqb name lat_name then Ok (lat c)
  else Raise (AttributeError name).

(** ** The target classes *)

(** Attributes stored by [ConstantElevationTarget.__init__]. *)
Record ConstantElevation : Type := mkConstantElevation {
  alt : Q;
  az_min : Q;
  az_max : Q;
  ce_name : option string;
  ramin : option Q;
  decc : option Q;
  alt_var : bool;
  min_alt : option Q;
  max_alt : option Q
}.

(** Instances of the subclasses of [Target]. *)
Inductive Target : Type :=
| FixedTarget (coord : SkyCoord) (name : option string)
| NonFixedTarget
| ConstantElevationTarget (ce : ConstantElevation)
| SolarSystemTarget (eph_name : string) (name : option string).

(** [Target.ra] *)
Definition ra (self : Target) : result Q :=
  match self with
  | FixedTarget coord _ => SkyCoord_getattr coord "ra"
  | _ => Raise NotImplementedError
  end.

(** [Target.dec] *)
Definition dec (self : Target) : result Q :=
  match self with
  | FixedTarget coord _ => SkyCoord_getattr coord "dec"
  | _ => Raise NotImplementedError
  end.

(** ** [FixedTarget._from_name_mock] *)

(** The dictionary [stars], in the order of the source. *)
Definition stars : list (string * (Q * Q)) :=
  [ ("rigel", (78.63446707, -8.20163837)%Q);
    ("sirius", (101.28715533, -16.71611586)%Q);
    ("vega", (279.23473479, 38.78368896)%Q);
    ("aldebaran", (68.98016279, 16.50930235)%Q);
    ("polaris", (37.95456067, 89.26410897)%Q);
    ("deneb", (310.35797975, 45.28033881)%Q);
    ("m13", (250.423475, 36.4613194)%Q);
    ("altair", (297.6958273, 8.8683212)%Q);
    ("hd 209458", (330.79, 18.88)%Q) ].

(** [key in d] *)
Definition dict_contains {V : Type} (d : list (string * V)) (key : string) : bool :=
  existsb (fun kv => String.eqb key (fst kv)) d.

(** [d[key]] *)
Fixpoint dict_getitem {V : Type} (d : list (string * V)) (key : string) : result V :=
  match d with
  | [] => Raise (KeyError key)
  | (k, v) :: d' => if String.eqb key k then Ok v else dict_getitem d' key
  end.

(** [SkyCoord(ra=..., dec=...)]: an angle-only position in the default frame. *)
Definition SkyCoord_ra_dec (radec : Q * Q) : SkyCoord :=
  mkSkyCoord ICRS (fst radec) (snd radec) None.

Definition not_in_mock (query_name : string) : string :=
  ("Target named " ++ query_name ++ " not in mocked FixedTarget method")%string.

Definition _from_name_mock (query_name : string) (name : option string)
  : result Target :=
  if dict_contains stars (lower query_name) then
    entry <- dict_getitem stars (lower query_name) ;;
    Ok (FixedTarget (SkyCoord_ra_dec entry) (Some query_name))
  else Raise (ValueError (not_in_mock query_name)).

(** ** [get_skycoord] *)

(** What the caller may put in [targets]: a target instance or a position. *)
Inductive pyobj : Type :=
| OTarget (t : Target)
| OSkyCoord (c : SkyCoord).

(** The argument [targets]: one object or a Python list of objects. *)
Inductive targets_arg : Type :=
| Single (o : pyobj)
| TargetList (l : list pyobj).

(** The value built by one of the three [SkyCoord(...)] calls that end
    [get_skycoord]; the call is recorded with its arguments. *)
Inductive SkyCoordSeq : Type :=
| SkyCoord_of_list (coords : list pyobj)
| SkyCoord_lonlat (longitudes latitudes : list Q) (frame : Frame)
| SkyCoord_lonlatdist (longitudes latitudes : list Q)
                      (distances : list Quantity) (frame : Frame).

Definition broadcast_msg : string :=
  "Either targets or times should be scalor, or the lengths of two lists should match".
Definition need_times_ce_msg : string :=
  "times should be given to calculate the coordinates for ConstantElevationTarget".
Definition need_times_ss_msg : string :=
  "times should be given to calculate the coordinates for SolarSystemTarget".
(** The beginning of numpy's message for a list it cannot make an array of. *)
Definition inhomogeneous_msg : string :=
  "setting an array element with a sequence.".

(** [targets.size], else [len(targets)], else 1. *)
Definition target_size_of (targets : targets_arg) : nat :=
  match targets with
  | Single _ => 1
  | TargetList l => List.length l
  end.

(** [if not isinstance(targets, list): targets = [targets]] *)
Definition as_list (targets : targets_arg) : list pyobj :=
  match targets with
  | Single o => [o]
  | TargetList l => l
  end.

(** [times.size] *)
Definition times_size (times : option Time) : result nat :=
  match times with
  | None => Raise (AttributeError "size")
  | Some ts => Ok (Time_size ts)
  end.

(** [observer.location] *)
Definition observer_location (observer : option Observer) : result EarthLocation :=
  match observer with
  | None => Raise (AttributeError "location")
  | Some o => Ok (location o)
  end.

Definition isinstance_ConstantElevationTarget (o : pyobj) : bool :=
  match o with
  | OTarget (ConstantElevationTarget _) => true
  | _ => false
  end.

(** [SkyCoord(target.az_min, target.alt, frame=AltAz(obstime=..., location=...))] *)
Definition altaz_coord (ce : ConstantElevation) (obstime : Time)
  (loc : EarthLocation) : SkyCoord :=
  mkSkyCoord (AltAz obstime loc) (az_min ce) (alt ce) None.

(** ** The calls of [SkyCoord(...)] that end [get_skycoord] *)

(** Distances are dimensionless numbers or lengths. *)
Definition is_length (q : Quantity) : bool :=
  match unit q with
  | dimensionless => false
  | _ => true
  end.

(** A list of quantities becomes one array in the unit of its first entry;
    an entry of another physical type cannot be converted to it. *)
Definition same_physical_type (ds : list Quantity) : bool :=
  match ds with
  | [] => true
  | d :: rest => forallb (fun q => Bool.eqb (is_length q) (is_length d)) rest
  end.

Fixpoint positions (coords : list pyobj) : option (list SkyCoord) :=
  match coords with
  | [] => Some []
  | OSkyCoord c :: rest =>
      match positions rest with
      | Some cs => Some (c :: cs)
      | None => None
      end
  | OTarget _ :: _ => None
  end.

(** What astropy answers to the recorded call: [SkyCoord(coords)] needs a
    non-empty list of positions in equivalent frames (with distances of one
    physical type when the first position has one), and
    [SkyCoord(longitudes, latitudes, distances, frame=...)] needs distances
    of one physical type. *)
Definition SkyCoord_call (r : SkyCoordSeq) : result SkyCoordSeq :=
  match r with
  | SkyCoord_of_list coords =>
      match positions coords with
      | None => Raise ConstructorError
      | Some [] => Raise ConstructorError
      | Some (first :: others) =>
          if negb (forallb (fun c => is_equivalent_frame (frame c) (frame first))
                           others)
          then Raise ConstructorError
          else if negb (is_unitspherical first)
                  && negb (same_physical_type (map distance (first :: others)))
          then Raise UnitConversionError
          else Ok r
      end
  | SkyCoord_lonlat _ _ _ => Ok r
  | SkyCoord_lonlatdist _ _ distances _ =>
      if same_physical_type distances then Ok r
      else Raise UnitConversionError
  end.

Section Resolve.

(** [astropy.coordinates.get_body(body, time, location=...)]: the
    ephemeris lookup; it raises for a body it does not know. *)
Variable get_body : string -> Time -> EarthLocation -> result SkyCoord.

(** [coordinate.icrs]: the conversion of a position to the ICRS frame. *)
Variable icrs : SkyCoord -> SkyCoord.

(** Lines 329-334: the time paired with target number [itarget]. *)
Definition select_time (times : option Time) (target_size itarget : nat)
  : result (option Time) :=
  match times with
  | None => Ok None
  | Some ts =>
      if (Time_size ts =? 1) || (target_size =? 1) then Ok (Some ts)
      else tm <- Time_getitem ts itarget ;; Ok (Some tm)
  end.

(** Lines 353-358: one position per index of [range(times.size)]. *)
Fixpoint sweep (ce : ConstantElevation) (time : Time)
  (observer : option Observer) (indices : list nat) (coords : list pyobj)
  : result (list pyobj) :=
  match indices with
  | [] => Ok coords
  | i :: rest =>
      tm <- Time_getitem time i ;;
      loc <- observer_location observer ;;
      sweep ce time observer rest (coords ++ [OSkyCoord (altaz_coord ce tm loc)])
  end.

(** Lines 329-366: the body of the loop over [enumerate(targets)]. *)
Definition visit (target_size : nat) (times : option Time)
  (observer : option Observer) (itarget : nat) (target : pyobj)
  (coords : list pyobj) : result (list pyobj) :=
  time <- select_time times target_size itarget ;;
  match target with
  | OTarget (FixedTarget coord _) =>
      if target_size =? 1 then
        n <- times_size times ;;
        Ok (coords ++ repeat (OSkyCoord coord) n)
      else Ok (coords ++ [OSkyCoord coord])
  | OTarget (ConstantElevationTarget ce) =>
      match time with
      | None => Raise (ValueError need_times_ce_msg)
      | Some tm =>
          if Time_size tm =? 1 then
            loc <- observer_location observer ;;
            Ok (coords ++ [OSkyCoord (altaz_coord ce tm loc)])
          else
            n <- times_size times ;;
            sweep ce tm observer (seq 0 n) coords
      end
  | OTarget (SolarSystemTarget eph_name _) =>
      match time with
      | None => Raise (ValueError need_times_ss_msg)
      | Some tm =>
          loc <- observer_location observer ;;
          coord <- get_body (lower eph_name) tm loc ;;
          Ok (coords ++ [OSkyCoord coord])
      end
  | other => Ok (coords ++ [other])
  end.

(** Lines 326-366: [for itarget, target in enumerate(targets)]. *)
Fixpoint resolve_each (target_size : nat) (times : option Time)
  (observer : option Observer) (itarget : nat) (targets : list pyobj)
  (coords : list pyobj) : result (list pyobj) :=
  match targets with
  | [] => Ok coords
  | target :: rest =>
      coords' <- visit target_size times observer itarget target coords ;;
      resolve_each target_size times observer (S itarget) rest coords'
  end.

(** [coord.frame], [x.data]: attributes of positions only. *)
Fixpoint as_skycoords (coords : list pyobj) : result (list SkyCoord) :=
  match coords with
  | [] => Ok []
  | OSkyCoord c :: rest => cs <- as_skycoords rest ;; Ok (c :: cs)
  | OTarget _ :: _ => Raise (AttributeError "frame")
  end.

(** Line 428: the distance equal to 1 is replaced by [100*u.kpc]. *)
Definition fill_distance (d : Quantity) : Quantity :=
  if ne_one d then d else sentinel_distance.

(** Lines 374-429 on a list of two or more positions: the arguments of the
    [SkyCoord(...)] call that the merge ends with. *)
Definition merge_frames (first : SkyCoord) (others : list SkyCoord)
  : SkyCoordSeq :=
  let coords := first :: others in
  let convert_to_icrs :=
    negb (all (map (fun c => is_equivalent_frame (frame c) (frame first))
                   others)) in
  let targets_is_unitsphericalrep := map is_unitspherical coords in
  let get_distances := negb (all targets_is_unitsphericalrep) in
  let source := if convert_to_icrs then map icrs coords else coords in
  let longitudes := map lon source in
  let latitudes := map lat source in
  let distances := if get_distances then map distance source else [] in
  let frame' := if convert_to_icrs then ICRS else frame first in
  if all targets_is_unitsphericalrep then
    SkyCoord_lonlat longitudes latitudes frame'
  else if negb (any targets_is_unitsphericalrep) then
    SkyCoord_lonlatdist longitudes latitudes distances frame'
  else
    SkyCoord_lonlatdist longitudes latitudes
      (map fill_distance distances) frame'.

(** What [np.array] finds in an object of the list: a position of shape
    [(n,)] is a sequence and is taken apart into its [n] scalar positions
    ([c[0]], ..., [c[n-1]], each with its own obstime); any other object is
    one entry. *)
Definition unpack (o : pyobj) : option (list pyobj) :=
  match o with
  | OSkyCoord c =>
      match frame c with
      | AltAz (TimeArray ts) loc =>
          Some (map (fun t => OSkyCoord (mkSkyCoord (AltAz (TimeScalar t) loc)
                                           (lon c) (lat c) (dist c)))
                    ts)
      | _ => None
      end
  | OTarget _ => None
  end.

Definition is_scalar (o : pyobj) : bool :=
  match unpack o with
  | None => true
  | Some _ => false
  end.

(** The rows of the array, when every object of the list is a sequence. *)
Fixpoint unpack_all (coords : list pyobj) : option (list (list pyobj)) :=
  match coords with
  | [] => Some []
  | o :: rest =>
      match unpack o, unpack_all rest with
      | Some row, Some rows => Some (row :: rows)
      | _, _ => None
      end
  end.

(** Line 372, [np.array(coords).squeeze().tolist()].  A list of [k] scalar
    objects is an array of shape [(k,)] and comes back as it is (for [k = 1]
    as the object itself, see [reconcile]).  A list of [k] positions of shape
    [(n,)] is an array of shape [(k, n)]: the axes of length 1 are squeezed
    out, which leaves the entries in a flat list when [k] or [n] is 1, and a
    list of lists otherwise, of which line 376 cannot ask the frame.  Numpy
    rejects a list whose objects differ in shape. *)
Definition squeeze_tolist (coords : list pyobj) : result (list pyobj) :=
  if forallb is_scalar coords then Ok coords
  else
    match unpack_all coords with
    | None => Raise (ValueError inhomogeneous_msg)
    | Some [] => Ok []
    | Some (row :: more) =>
        if negb (forallb (fun r => List.length r =? List.length row) more)
        then Raise (ValueError inhomogeneous_msg)
        else
          match more with
          | [] => Ok row
          | _ =>
              if List.length row =? 1 then Ok (List.concat (row :: more))
              else Raise (AttributeError "frame")
          end
    end.

(** Lines 374-429 on what line 372 hands over: a list of no or of several
    objects, or, squeezed out of a list of one, the object itself, which
    line 375 cannot slice; on the empty list [coords[0]] is out of range.
    The merge ends with the [SkyCoord(...)] call of line 417, 419 or 429. *)
Definition reconcile (coords : list pyobj) : result SkyCoordSeq :=
  match coords with
  | [] => Raise IndexError
  | [_] => Raise (TypeError "object is not subscriptable")
  | _ =>
      cs <- as_skycoords coords ;;
      match cs with
      | first :: others => SkyCoord_call (merge_frames first others)
      | [] => Raise IndexError
      end
  end.

(** Lines 368-370: does the call return [SkyCoord(coords)] at once? *)
Definition returns_directly (target_size : nat) (targets : list pyobj)
  (times : option Time) : result bool :=
  if target_size =? 1 then
    match targets with
    | [] => Raise IndexError
    | t0 :: _ =>
        if negb (isinstance_ConstantElevationTarget t0) then Ok true
        else n <- times_size times ;; Ok (n =? 1)
    end
  else Ok false.

Definition get_skycoord (targets : targets_arg) (times : option Time)
  (observer : option Observer) : result SkyCoordSeq :=
  let target_size := target_size_of targets in
  let targets := as_list targets in
  _ <- match times with
       | Some ts =>
           if negb (target_size =? 1) && negb (Time_size ts =? 1)
              && negb (target_size =? Time_size ts)
           then Raise (ValueError broadcast_msg) else Ok tt
       | None => Ok tt
       end ;;
  coords <- resolve_each target_size times observer 0 targets [] ;;
  direct <- returns_directly target_size targets times ;;
  if direct then SkyCoord_call (SkyCoord_of_list coords)
  else coords <- squeeze_tolist coords ;; reconcile coords.


End Resolve.

(** ** Vocabulary of the statements *)

(** The targets whose position is computed on demand. *)
Definition on_demand (o : pyobj) : bool :=
  match o with
  | OTarget (ConstantElevationTarget _) => true
  | OTarget (SolarSystemTarget _ _) => true
  | _ => false
  end.

(** The two [ValueError]s raised for a missing time. *)
Definition is_MissingInput (e : exn) : Prop :=
  e = ValueError need_times_ce_msg \/ e = ValueError need_times_ss_msg.

(** The [ValueError] raised for sizes that do not broadcast. *)
Definition BroadcastMismatch : exn := ValueError broadcast_msg.

(** Equality of two names up to letter case. *)
Definition eq_nocase (a b : string) : Prop := lower a = lower b.

(** The number of positions an object of the list stands for. *)
Definition size_of (o : pyobj) : nat :=
  match unpack o with
  | None => 1
  | Some row => List.length row
  end.

(** Length of a returned sequence. *)
Definition seq_length (r : SkyCoordSeq) : nat :=
  match r with
  | SkyCoord_of_list coords => list_sum (map size_of coords)
  | SkyCoord_lonlat longitudes _ _ => List.length longitudes
  | SkyCoord_lonlatdist longitudes _ _ _ => List.length longitudes
  end.

(** The pairs of angles of a merged sequence, by index. *)
Definition angles (r : SkyCoordSeq) : list (Q * Q) :=
  match r with
  | SkyCoord_of_list _ => []
  | SkyCoord_lonlat longitudes latitudes _ => combine longitudes latitudes
  | SkyCoord_lonlatdist longitudes latitudes _ _ => combine longitudes latitudes
  end.

(** The distances of a merged sequence, by index. *)
Definition distances_of (r : SkyCoordSeq) : list Quantity :=
  match r with
  | SkyCoord_lonlatdist _ _ distances _ => distances
  | _ => []
  end.

(** ** Sample values and stand-ins for the two astropy services *)

Definition sample_get_body (body : string) (time : Time) (loc : EarthLocation)
  : result SkyCoord :=
  if String.eqb body "moon"
  then Ok (mkSkyCoord ICRS 120 15 (Some (mkQuantity 0.00257 AU)))
  else Raise (KeyError body).

Definition sample_icrs (c : SkyCoord) : SkyCoord :=
  mkSkyCoord ICRS (lon c) (lat c) (dist c).

Definition site : Observer :=
  mkObserver (mkEarthLocation (-67.74) (-22.99) 5612) (Some "site").

Definition scan : ConstantElevation :=
  mkConstantElevation 45 10 50 (Some "scan") None None false None None.

Definition sirius : SkyCoord := mkSkyCoord ICRS 101.28715533 (-16.71611586) None.

Definition near_star : SkyCoord :=
  mkSkyCoord ICRS 10 20 (Some (mkQuantity 10 pc)).

(** A position whose data carry the dimensionless distance 1
    ([SkyCoord(ra, dec, distance=1)]). *)
Definition unit_distance_star : SkyCoord :=
  mkSkyCoord ICRS 10 20 (Some (mkQuantity 1 dimensionless)).

Definition galactic_point : SkyCoord := mkSkyCoord Galactic 33 (-5) None.

(** ** Constructors and the online name lookup *)

(** [FixedTarget.__init__]: [coord] must have [transform_to] and
    [represent_as]; a position has both, a target instance has neither. *)
Definition FixedTarget_init (coord : pyobj) (name : option string)
  : result Target :=
  match coord with
  | OSkyCoord c => Ok (FixedTarget c name)
  | OTarget _ => Raise (TypeError "`coord` must be a coordinate object.")
  end.

(** [FixedTarget.from_name]; [SkyCoord_from_name] is the CDS name resolver
    ([SkyCoord.from_name]), which raises for a name it cannot resolve. *)
Definition from_name (SkyCoord_from_name : string -> result SkyCoord)
  (query_name : string) (name : option string) : result Target :=
  let name :=
    match name with
    | None => query_name
    | Some n => n
    end in
  c <- SkyCoord_from_name query_name ;;
  FixedTarget_init (OSkyCoord c) (Some name).

(** ** Further vocabulary *)

(** The frame of a merged sequence. *)
Definition frame_of (r : SkyCoordSeq) : option Frame :=
  match r with
  | SkyCoord_of_list _ => None
  | SkyCoord_lonlat _ _ f => Some f
  | SkyCoord_lonlatdist _ _ _ f => Some f
  end.






(** The distances that the merge of the positions [cs] hands to the final
    [SkyCoord(...)] call (none when it hands over angles only). *)
Definition merged_distances (icrs : SkyCoord -> SkyCoord) (cs : list SkyCoord)
  : list Quantity :=
  match cs with
  | [] => []
  | first :: others => distances_of (merge_frames icrs first others)
  end.

(** Scalar positions: what [np.array(coords).squeeze().tolist()] hands back
    as they are. *)
Definition scalar_positions (cs : list SkyCoord) : bool :=
  forallb (fun c => scalar_frame (frame c)) cs.


Definition isinstance_SolarSystemTarget (o : pyobj) : bool :=
  match o with
  | OTarget (SolarSystemTarget _ _) => true
  | _ => false
  end.


(** * Properties *)

(** ** General facts *)

Lemma eqb_false_of_neq (a b : nat) : a <> b -> (a =? b) = false.
Proof. intro H. now apply Nat.eqb_neq. Qed.

Ltac eqb_false :=
  repeat match goal with
         | H : ?a <> ?b |- context [?a =? ?b] =>
             rewrite (eqb_false_of_neq a b H)
         end.

Section Facts.

Variable get_body : string -> Time -> EarthLocation -> result SkyCoord.
Variable icrs : SkyCoord -> SkyCoord.

(** With several targets the time handed to a target is a single time. *)
Lemma select_time_scalar target_size ts i tm :
  target_size <> 1 ->
  select_time (Some ts) target_size i = Ok (Some tm) ->
  Time_size tm = 1.
Proof.
  intros Hn. unfold select_time. eqb_false.
  destruct (Time_size ts =? 1) eqn:E; simpl.
  - intros [= <-]. now apply Nat.eqb_eq.
  - unfold Time_getitem. destruct ts as [t | ts]; simpl; [discriminate |].
    destruct (nth_error ts i); simpl; [| discriminate].
    now intros [= <-].
Qed.

(** A target that needs a time stops the loop when [times] is [None]. *)
Lemma visit_no_times target_size observer i o coords :
  on_demand o = true ->
  exists e, visit get_body target_size None observer i o coords = Raise e
            /\ is_MissingInput e.
Proof.
  destruct o as [[c n | | ce | eph n] | c]; simpl; try discriminate; intros _.
  - eexists; split; [reflexivity | now left].
  - eexists; split; [reflexivity | now right].
Qed.

(** No other target stops the loop over several targets without times. *)
Lemma visit_no_times_other target_size observer i o coords :
  target_size <> 1 -> on_demand o = false ->
  exists coords', visit get_body target_size None observer i o coords = Ok coords'.
Proof.
  intros Hn.
  destruct o as [[c n | | ce | eph n] | c]; simpl; try discriminate; intros _;
    unfold visit; simpl; eqb_false; eexists; reflexivity.
Qed.

Lemma resolve_each_no_times target_size observer l :
  target_size <> 1 ->
  existsb on_demand l = true ->
  forall i coords,
  exists e, resolve_each get_body target_size None observer i l coords = Raise e
            /\ is_MissingInput e.
Proof.
  intros Hn. induction l as [| o l IH]; simpl; [discriminate |].
  intros H i coords. destruct (on_demand o) eqn:Ho.
  - destruct (visit_no_times target_size observer i o coords Ho) as (e & -> & He).
    now exists e.
  - destruct (visit_no_times_other target_size observer i o coords Hn Ho)
      as (coords' & ->).
    simpl. now apply IH.
Qed.

(** The whole call without times, on targets holding an on-demand one. *)
Lemma no_times_raises targets observer :
  existsb on_demand (as_list targets) = true ->
  exists e, get_skycoord get_body icrs targets None observer = Raise e /\ is_MissingInput e.
Proof.
  intros H. unfold get_skycoord. simpl.
  destruct (Nat.eq_dec (target_size_of targets) 1) as [E | E].
  - assert (exists o, as_list targets = [o]) as (o & Ho).
    { destruct targets as [o | [| o [| o' l]]]; simpl in *;
        try discriminate; now exists o. }
    rewrite Ho in *. simpl in H. rewrite orb_false_r in H. simpl.
    destruct (visit_no_times (target_size_of targets) observer 0 o [] H)
      as (e & -> & He).
    now exists e.
  - destruct (resolve_each_no_times _ observer _ E H 0 []) as (e & -> & He).
    now exists e.
Qed.

(** Without an observer an on-demand target among several stops the loop. *)
Lemma visit_no_observer target_size ts i o coords :
  target_size <> 1 -> on_demand o = true ->
  exists e, visit get_body target_size (Some ts) None i o coords = Raise e.
Proof.
  intros Hn Ho. unfold visit.
  destruct (select_time (Some ts) target_size i) as [[tm |] | e] eqn:E; simpl.
  - apply (select_time_scalar _ _ _ _ Hn) in E.
    destruct o as [[c n | | ce | eph n] | c]; simpl in Ho; try discriminate.
    + rewrite E. simpl. eexists; reflexivity.
    + simpl. eexists; reflexivity.
  - unfold select_time in E.
    destruct ((Time_size ts =? 1) || (target_size =? 1)); [discriminate |].
    destruct (Time_getitem ts i); discriminate.
  - eexists; reflexivity.
Qed.

Lemma resolve_each_no_observer target_size ts l :
  target_size <> 1 ->
  existsb on_demand l = true ->
  forall i coords,
  exists e, resolve_each get_body target_size (Some ts) None i l coords = Raise e.
Proof.
  intros Hn. induction l as [| o l IH]; simpl; [discriminate |].
  intros H i coords. destruct (on_demand o) eqn:Ho.
  - destruct (visit_no_observer target_size ts i o coords Hn Ho) as (e & ->).
    now exists e.
  - simpl in H.
    destruct (visit get_body target_size (Some ts) None i o coords) as [coords' | e].
    + simpl. now apply IH.
    + now exists e.
Qed.

(** A lone on-demand target without an observer. *)
Lemma single_no_observer targets o ts :
  as_list targets = [o] -> on_demand o = true ->
  exists e, get_skycoord get_body icrs targets (Some ts) None = Raise e.
Proof.
  intros Hl Ho.
  assert (target_size_of targets = 1) as Hs.
  { destruct targets as [o' | l]; simpl in *; [reflexivity | now subst]. }
  unfold get_skycoord. rewrite Hl, Hs. simpl.
  destruct o as [[c n | | ce | eph n] | c]; simpl in Ho; try discriminate.
  - unfold visit. simpl. rewrite orb_true_r. simpl.
    destruct (Time_size ts =? 1) eqn:E; simpl; [eexists; reflexivity |].
    destruct ts as [t | ts]; simpl in *; [discriminate |].
    destruct ts as [| t ts]; simpl; eexists; reflexivity.
  - unfold visit. simpl. rewrite orb_true_r. simpl.
    eexists; reflexivity.
Qed.

End Facts.

(** ** A single fixed target without times *)

(** C1.  The claim: resolving one [FixedTarget] with [times=None] returns its
    stored position unchanged.  The code does not: with one target the loop
    runs [for i in range(times.size)], and [times] is [None], so the call
    raises [AttributeError] for every such target, as a scalar and as a
    one-element list. *)
Theorem get_skycoord_single_fixed_without_times :
  forall get_body icrs coord name observer,
    get_skycoord get_body icrs (Single (OTarget (FixedTarget coord name)))
                 None observer
    = Raise (AttributeError "size")
    /\ get_skycoord get_body icrs (TargetList [OTarget (FixedTarget coord name)])
                    None observer
       = Raise (AttributeError "size").
Proof. intros. split; reflexivity. Qed.

(** The sibling path: two fixed targets without times are resolved, as the
    docstring of [get_skycoord] allows ([times] "can be None only when all
    targets are FixedTargets"). *)
Lemma get_skycoord_two_fixed_without_times :
  forall get_body icrs observer,
    get_skycoord get_body icrs
      (TargetList [OTarget (FixedTarget sirius None);
                   OTarget (FixedTarget galactic_point None)])
      None observer
    = Ok (SkyCoord_lonlat [lon (icrs sirius); lon (icrs galactic_point)]
            [lat (icrs sirius); lat (icrs galactic_point)] ICRS).
Proof. intros. reflexivity. Qed.

(** ** Broadcasting *)

(** C2.  A list of [T] targets and times of size [S] with [T <> 1], [S <> 1]
    and [T <> S] make [get_skycoord] raise the broadcast [ValueError]; no
    result is produced. *)
Theorem get_skycoord_broadcast_mismatch :
  forall get_body icrs (targets : list pyobj) (times : Time) observer,
    List.length targets <> 1 ->
    Time_size times <> 1 ->
    List.length targets <> Time_size times ->
    get_skycoord get_body icrs (TargetList targets) (Some times) observer
    = Raise BroadcastMismatch.
Proof.
  intros gb ic targets times observer H1 H2 H3.
  unfold get_skycoord. simpl. now eqb_false.
Qed.

Lemma get_skycoord_broadcast_mismatch_witness :
  get_skycoord sample_get_body sample_icrs
    (TargetList [OTarget (FixedTarget sirius None);
                 OTarget (FixedTarget near_star None);
                 OSkyCoord galactic_point])
    (Some (TimeArray [1; 2; 3; 4; 5]%Z)) (Some site)
  = Raise BroadcastMismatch.
Proof.
  apply get_skycoord_broadcast_mismatch; simpl; lia.
Defined.

(** ** Missing time *)

(** C4.  With [times=None], a call whose targets hold a
    [ConstantElevationTarget] or a [SolarSystemTarget] (alone, or anywhere in
    a list) raises one of the two missing-time [ValueError]s. *)
Theorem get_skycoord_without_times_missing_input :
  forall get_body icrs targets observer,
    existsb on_demand (as_list targets) = true ->
    exists e,
      get_skycoord get_body icrs targets None observer = Raise e
      /\ is_MissingInput e.
Proof. intros. now apply no_times_raises. Qed.

Lemma get_skycoord_without_times_missing_input_witness :
  exists e,
    get_skycoord sample_get_body sample_icrs
      (TargetList [OTarget (FixedTarget sirius None);
                   OTarget (SolarSystemTarget "Moon" (Some "the Moon"));
                   OTarget (ConstantElevationTarget scan)])
      None (Some site) = Raise e
    /\ is_MissingInput e.
Proof.
  apply get_skycoord_without_times_missing_input. reflexivity.
Defined.

(** ** Missing observer *)

(** C5, the claim as stated fails.  With an on-demand target and no observer
    the error is not always a missing-input [ValueError]: sizes that do not
    broadcast are rejected first, and with a time given the failure is the
    [AttributeError] of reading [observer.location] on [None]. *)
Lemma get_skycoord_without_observer_other_errors :
  (get_skycoord sample_get_body sample_icrs
     (TargetList [OTarget (ConstantElevationTarget scan);
                  OTarget (ConstantElevationTarget scan);
                  OTarget (ConstantElevationTarget scan)])
     (Some (TimeArray [1; 2; 3; 4; 5]%Z)) None
   = Raise BroadcastMismatch
   /\ ~ is_MissingInput BroadcastMismatch)
  /\ (get_skycoord sample_get_body sample_icrs
        (Single (OTarget (ConstantElevationTarget scan)))
        (Some (TimeScalar 7)) None
      = Raise (AttributeError "location")
      /\ ~ is_MissingInput (AttributeError "location")).
Proof.
  repeat split; try reflexivity; intros [H | H]; discriminate H.
Qed.

(** C5, amended.  A call whose targets hold a [ConstantElevationTarget] or a
    [SolarSystemTarget] and whose observer is [None] never returns a result:
    it raises; when [times] is [None] as well the error is the missing-time
    [ValueError], and sizes that do not broadcast give the broadcast
    [ValueError]. *)
Theorem get_skycoord_without_observer_raises :
  forall get_body icrs targets times,
    existsb on_demand (as_list targets) = true ->
    exists e,
      get_skycoord get_body icrs targets times None = Raise e
      /\ (times = None -> is_MissingInput e)
      /\ (forall ts, times = Some ts ->
            target_size_of targets <> 1 -> Time_size ts <> 1 ->
            target_size_of targets <> Time_size ts -> e = BroadcastMismatch).
Proof.
  intros gb ic targets [ts |] H.
  - assert (exists e, get_skycoord gb ic targets (Some ts) None = Raise e
                      /\ (target_size_of targets <> 1 -> Time_size ts <> 1 ->
                          target_size_of targets <> Time_size ts ->
                          e = BroadcastMismatch)) as (e & He & Hb).
    { destruct (Nat.eq_dec (target_size_of targets) 1) as [E | E].
      - assert (exists o, as_list targets = [o]) as (o & Ho).
        { destruct targets as [o | [| o [| o' l]]]; simpl in *;
            try discriminate; now exists o. }
        assert (on_demand o = true) as Hd.
        { rewrite Ho in H. simpl in H. now rewrite orb_false_r in H. }
        destruct (single_no_observer gb ic targets o ts Ho Hd) as (e & He).
        exists e. split; [exact He | intros; contradiction].
      - unfold get_skycoord. simpl. eqb_false. simpl.
        destruct (negb (Time_size ts =? 1)
                  && negb (target_size_of targets =? Time_size ts)) eqn:B; simpl.
        + eexists; split; reflexivity.
        + destruct (resolve_each_no_observer gb _ ts _ E H 0 []) as (e & ->).
          exists e. split; [reflexivity |].
          intros _ H2 H3. revert B. now eqb_false. }
    exists e. split; [exact He |]. split; [discriminate |].
    intros ts' [= <-]. exact Hb.
  - destruct (no_times_raises gb ic targets None H) as (e & He & Hm).
    exists e. split; [exact He |]. split; [now intros _ | discriminate].
Qed.

Lemma get_skycoord_without_observer_raises_witness :
  exists e,
    get_skycoord sample_get_body sample_icrs
      (TargetList [OTarget (FixedTarget sirius None);
                   OTarget (SolarSystemTarget "moon" None)])
      (Some (TimeArray [1; 2]%Z)) None = Raise e.
Proof.
  destruct (get_skycoord_without_observer_raises sample_get_body sample_icrs
              (TargetList [OTarget (FixedTarget sirius None);
                           OTarget (SolarSystemTarget "moon" None)])
              (Some (TimeArray [1; 2]%Z)) eq_refl) as (e & He & _).
  now exists e.
Defined.

(** ** Element-wise pairing of equally long targets and times *)


Lemma combine_map_pair {A B C : Type} (f : A -> B) (g : A -> C) (l : list A) :
  combine (map f l) (map g l) = map (fun a => (f a, g a)) l.
Proof. induction l as [| a l IH]; simpl; [reflexivity | now rewrite IH]. Qed.

Lemma as_skycoords_positions (cs : list SkyCoord) :
  as_skycoords (map OSkyCoord cs) = Ok cs.
Proof. induction cs as [| c cs IH]; simpl; [reflexivity | now rewrite IH]. Qed.

Section Pairing.

Variable get_body : string -> Time -> EarthLocation -> result SkyCoord.
Variable icrs : SkyCoord -> SkyCoord.
Variable observer : option Observer.
Variable target_size : nat.
Variable ts : list Z.
Hypothesis several_targets : target_size <> 1.
Hypothesis several_times : List.length ts <> 1.



End Pairing.

(** The merge keeps one entry per position, in the order of the list; the
    angles are those of the position or of its ICRS conversion. *)
Lemma merge_frames_by_index icrs first others :
  let r := merge_frames icrs first others in
  seq_length r = S (List.length others)
  /\ (angles r = map (fun c => (lon c, lat c)) (first :: others)
      \/ angles r = map (fun c => (lon (icrs c), lat (icrs c))) (first :: others)).
Proof.
  unfold merge_frames. cbv zeta.
  set (cs := first :: others).
  assert (List.length cs = S (List.length others)) as Hlen by reflexivity.
  destruct (negb (all (map (fun c => is_equivalent_frame (frame c) (frame first))
                           others)));
    destruct (all (map is_unitspherical cs));
    try destruct (negb (any (map is_unitspherical cs)));
    cbn [seq_length angles]; rewrite ?combine_map_pair, ?length_map, ?map_map;
    (split; [exact Hlen | (now left) || (now right)]).
Qed.

(** The final call of the merge is accepted exactly when the distances it
    is given are of one physical type. *)
Lemma SkyCoord_call_merge icrs first others :
  SkyCoord_call (merge_frames icrs first others)
  = if same_physical_type (distances_of (merge_frames icrs first others))
    then Ok (merge_frames icrs first others)
    else Raise UnitConversionError.
Proof.
  unfold merge_frames. cbv zeta.
  destruct (all (map is_unitspherical (first :: others)));
    [| destruct (negb (any (map is_unitspherical (first :: others))))];
    reflexivity.
Qed.

Lemma reconcile_several icrs c1 c2 (cs : list SkyCoord) :
  reconcile icrs (map OSkyCoord (c1 :: c2 :: cs))
  = SkyCoord_call (merge_frames icrs c1 (c2 :: cs)).
Proof.
  unfold reconcile.
  change (map OSkyCoord (c1 :: c2 :: cs))
    with (OSkyCoord c1 :: OSkyCoord c2 :: map OSkyCoord cs).
  cbv iota beta.
  change (OSkyCoord c1 :: OSkyCoord c2 :: map OSkyCoord cs)
    with (map OSkyCoord (c1 :: c2 :: cs)).
  now rewrite as_skycoords_positions.
Qed.


(** Line 372 on positions that are no scalars.  Two
    [ConstantElevationTarget]s resolved at an array of one time give two
    positions of shape [(1,)]; the squeeze hands them over as scalars, and
    the frame of the merged sequence holds a scalar obstime.  Next to a
    scalar position, a position of shape [(1,)] makes a list that numpy
    rejects. *)
Lemma get_skycoord_array_of_one_time :
  get_skycoord sample_get_body sample_icrs
    (TargetList [OTarget (ConstantElevationTarget scan);
                 OTarget (ConstantElevationTarget scan)])
    (Some (TimeArray [77]%Z)) (Some site)
  = Ok (SkyCoord_lonlat [az_min scan; az_min scan] [alt scan; alt scan]
          (AltAz (TimeScalar 77) (location site)))
  /\ get_skycoord sample_get_body sample_icrs
       (TargetList [OTarget (FixedTarget sirius None);
                    OTarget (ConstantElevationTarget scan)])
       (Some (TimeArray [77]%Z)) (Some site)
     = Raise (ValueError inhomogeneous_msg).
Proof. split; reflexivity. Qed.





(** ** The direct return *)


(** Whatever a [SkyCoord(...)] call returns is the value built from its
    arguments. *)
Lemma SkyCoord_call_ok (r r' : SkyCoordSeq) :
  SkyCoord_call r = Ok r' -> r' = r.
Proof.
  destruct r as [coords | lo la f | lo la ds f]; simpl.
  - destruct (positions coords) as [[| first others] |]; try discriminate.
    destruct (negb (forallb _ others)); [discriminate |].
    destruct (negb (is_unitspherical first) && _); [discriminate |].
    now intros [= <-].
  - now intros [= <-].
  - destruct (same_physical_type ds); [| discriminate]. now intros [= <-].
Qed.



(** ** Sentinel distance in the mixed merge *)

(** C7.  The claim, with the comment of lines 421-427: in a merge of
    angle-only positions and positions with a distance, the angle-only ones
    get 100 kpc and the others keep their distance.  The code does not keep
    it always: line 428 recognises an angle-only position by the value of its
    distance ([distance != 1]), not by its representation, and a position
    whose data carry the dimensionless distance 1 is not angle-only, yet it
    loses its distance to the sentinel when merged with an angle-only one. *)
Lemma get_skycoord_unit_distance_replaced :
  is_unitspherical unit_distance_star = false
  /\ distance unit_distance_star = mkQuantity 1 dimensionless
  /\ is_unitspherical sirius = true
  /\ get_skycoord sample_get_body sample_icrs
       (TargetList [OSkyCoord unit_distance_star; OSkyCoord sirius]) None None
     = Ok (SkyCoord_lonlatdist [lon unit_distance_star; lon sirius]
             [lat unit_distance_star; lat sirius]
             [sentinel_distance; sentinel_distance] ICRS)
  /\ sentinel_distance <> distance unit_distance_star.
Proof. repeat split; try reflexivity. discriminate. Qed.

Lemma all_forallb (f : SkyCoord -> bool) (l : list SkyCoord) :
  all (map f l) = forallb f l.
Proof. unfold all. induction l as [| a l IH]; simpl; [| rewrite IH]; reflexivity. Qed.

Lemma any_existsb (f : SkyCoord -> bool) (l : list SkyCoord) :
  any (map f l) = existsb f l.
Proof. unfold any. induction l as [| a l IH]; simpl; [| rewrite IH]; reflexivity. Qed.

(** Apart from that case the merge does what the comment says: when it
    receives positions of which some are angle-only and some are not, and
    the final call accepts the distances, every angle-only position comes back
    with 100 kpc and every other one with the distance it reports in the
    merged frame, unless that distance is the dimensionless 1.  The conversion
    to ICRS is assumed to keep an angle-only position angle-only. *)
Lemma reconcile_mixed_distances :
  forall icrs (cs : list SkyCoord) r,
    (forall c, is_unitspherical c = true ->
               distance (icrs c) = mkQuantity 1 dimensionless) ->
    existsb is_unitspherical cs = true ->
    forallb is_unitspherical cs = false ->
    reconcile icrs (map OSkyCoord cs) = Ok r ->
    exists conv,
      (conv = (fun c => c) \/ conv = icrs)
      /\ List.length (distances_of r) = List.length cs
      /\ forall i c, nth_error cs i = Some c ->
           (is_unitspherical c = true ->
            nth_error (distances_of r) i = Some sentinel_distance)
           /\ (is_unitspherical c = false ->
               nth_error (distances_of r) i
               = Some (if ne_one (distance (conv c)) then distance (conv c)
                       else sentinel_distance)).
Proof.
  intros ic cs r Hic Hany Hall Hr.
  destruct cs as [| c1 [| c2 cs]]; [discriminate Hany | |].
  { simpl in Hany, Hall. rewrite orb_false_r in Hany.
    rewrite andb_true_r in Hall. congruence. }
  rewrite reconcile_several in Hr. apply SkyCoord_call_ok in Hr. subst r.
  set (l := c1 :: c2 :: cs) in *.
  unfold merge_frames. cbv zeta. fold l.
  rewrite all_forallb, any_existsb, Hall, Hany. cbn [negb].
  destruct (negb (all (map (fun c => is_equivalent_frame (frame c) (frame c1))
                           (c2 :: cs)))) eqn:Hconv.
  - exists ic. split; [now right |].
    cbn [distances_of]. split; [now rewrite !length_map |].
    intros i c Hi.
    assert (nth_error (map fill_distance (map distance (map ic l))) i
            = Some (fill_distance (distance (ic c)))) as ->.
    { now repeat apply map_nth_error. }
    split; intros Hc; [| reflexivity].
    now rewrite (Hic c Hc).
  - exists (fun c => c). split; [now left |].
    cbn [distances_of]. split; [now rewrite !length_map |].
    intros i c Hi.
    assert (nth_error (map fill_distance (map distance l)) i
            = Some (fill_distance (distance c))) as ->.
    { now repeat apply map_nth_error. }
    split; intros Hc; [| reflexivity].
    unfold is_unitspherical in Hc. unfold distance.
    destruct (dist c); [discriminate | reflexivity].
Qed.

(** ** The [ra] and [dec] properties *)

(** C8, the claim as stated fails: a [FixedTarget] whose position is in a
    frame that has no angles called [ra] and [dec] (here Galactic, whose
    angles are [l] and [b]) does not return an angle; [coord.ra] and
    [coord.dec] raise [AttributeError]. *)
Lemma ra_dec_of_galactic_fixed_target :
  frame galactic_point = Galactic
  /\ ra (FixedTarget galactic_point None) = Raise (AttributeError "ra")
  /\ dec (FixedTarget galactic_point None) = Raise (AttributeError "dec").
Proof. repeat split; reflexivity. Qed.

(** C8, amended.  On a [FixedTarget] whose position is in a frame that names
    its angles [ra] and [dec], the properties [ra] and [dec] return the
    stored longitude and latitude; on a [FixedTarget] in any other frame they
    raise the [AttributeError] of the position; on every other kind of target
    they raise [NotImplementedError]. *)
Theorem ra_dec_by_variant :
  (forall coord name,
      lon_lat_names (frame coord) = ("ra", "dec") ->
      ra (FixedTarget coord name) = Ok (lon coord)
      /\ dec (FixedTarget coord name) = Ok (lat coord))
  /\ (forall coord name,
        lon_lat_names (frame coord) <> ("ra", "dec") ->
        ra (FixedTarget coord name) = Raise (AttributeError "ra")
        /\ dec (FixedTarget coord name) = Raise (AttributeError "dec"))
  /\ (ra NonFixedTarget = Raise NotImplementedError
      /\ dec NonFixedTarget = Raise NotImplementedError)
  /\ (forall ce,
        ra (ConstantElevationTarget ce) = Raise NotImplementedError
        /\ dec (ConstantElevationTarget ce) = Raise NotImplementedError)
  /\ (forall eph_name name,
        ra (SolarSystemTarget eph_name name) = Raise NotImplementedError
        /\ dec (SolarSystemTarget eph_name name) = Raise NotImplementedError).
Proof.
  split; [| split; [| repeat split; reflexivity]].
  - intros coord name H. unfold ra, dec, SkyCoord_getattr. rewrite H.
    split; reflexivity.
  - intros coord name H. unfold ra, dec, SkyCoord_getattr.
    destruct (frame coord); simpl in *; try (split; reflexivity).
    now contradiction H.
Qed.

Lemma ra_dec_by_variant_witness :
  (ra (FixedTarget sirius (Some "Sirius")) = Ok (lon sirius)
   /\ dec (FixedTarget sirius (Some "Sirius")) = Ok (lat sirius))
  /\ (ra (FixedTarget (altaz_coord scan (TimeScalar 0) (location site)) None)
      = Raise (AttributeError "ra")
      /\ dec (FixedTarget (altaz_coord scan (TimeScalar 0) (location site)) None)
         = Raise (AttributeError "dec")).
Proof.
  split.
  - apply (proj1 ra_dec_by_variant sirius (Some "Sirius")). reflexivity.
  - apply (proj1 (proj2 ra_dec_by_variant)
             (altaz_coord scan (TimeScalar 0) (location site)) None).
    simpl. discriminate.
Defined.

(** ** The offline name table *)


(** The keys of [stars] are written in lower case and are pairwise distinct:
    each entry is found under its own key. *)
Lemma stars_entry (k : string) (radec : Q * Q) :
  In (k, radec) stars ->
  lower k = k /\ dict_contains stars k = true /\ dict_getitem stars k = Ok radec.
Proof.
  unfold stars. simpl.
  intros H.
  repeat (destruct H as [H | H];
          [injection H as <- <-; repeat split; reflexivity |]).
  contradiction.
Qed.



(** ** The ephemeris body name *)

Section BodyName.

Variable get_body : string -> Time -> EarthLocation -> result SkyCoord.
Variable icrs : SkyCoord -> SkyCoord.
Variables (e1 e2 : string) (n1 n2 : option string).
Hypothesis same_body : eq_nocase e1 e2.




End BodyName.

(** *** What [lower] does to the letters *)










(** * Further properties of the module *)

(** ** One target and several times *)








(** ** The empty list *)

(** An empty list of targets never gives a result: the sizes are rejected
    when [times] has a size other than 0 and 1, and otherwise the merge fails
    on [coords[0]] with [IndexError]. *)
Theorem get_skycoord_empty_list :
  forall get_body icrs times observer,
    get_skycoord get_body icrs (TargetList []) times observer
    = Raise (match times with
             | None => IndexError
             | Some ts =>
                 if (Time_size ts =? 0) || (Time_size ts =? 1)
                 then IndexError else BroadcastMismatch
             end).
Proof.
  intros gb ic [ts |] observer; unfold get_skycoord; simpl; [| reflexivity].
  destruct (Time_size ts) as [| [| n]]; reflexivity.
Qed.

(** ** Several targets and one time *)

Section SingleTime.

Variable get_body : string -> Time -> EarthLocation -> result SkyCoord.
Variable observer : option Observer.
Variable target_size : nat.
Variable time : Time.
Hypothesis several_targets : target_size <> 1.
Hypothesis one_time : Time_size time = 1.



End SingleTime.



(** ** A lone constant-elevation target over several times *)





(** ** The merge on positions of one kind *)

(** When none of two or more merged scalar positions is angle-only, the
    distances handed to the final call are exactly the distances the
    positions report in the merged frame: the sentinel is not used, not even
    for a dimensionless distance 1.  The call returns them when they are of
    one physical type and raises [UnitConversionError] when dimensionless
    numbers and lengths are mixed. *)
Theorem reconcile_all_with_distance :
  forall icrs (cs : list SkyCoord),
    2 <= List.length cs ->
    scalar_positions cs = true ->
    existsb is_unitspherical cs = false ->
    exists conv,
      (conv = (fun c => c) \/ conv = icrs)
      /\ (same_physical_type (map (fun c => distance (conv c)) cs) = true ->
          exists r,
            reconcile icrs (map OSkyCoord cs) = Ok r
            /\ distances_of r = map (fun c => distance (conv c)) cs
            /\ angles r = map (fun c => (lon (conv c), lat (conv c))) cs)
      /\ (same_physical_type (map (fun c => distance (conv c)) cs) = false ->
          reconcile icrs (map OSkyCoord cs)
          = Raise UnitConversionError).
Proof.
  intros ic cs Hlen _ Hany.
  destruct cs as [| c1 [| c2 cs]]; simpl in Hlen; try lia.
  rewrite reconcile_several, SkyCoord_call_merge.
  set (l := c1 :: c2 :: cs) in *.
  assert (forallb is_unitspherical l = false) as Hall.
  { unfold l in *. simpl in *. apply orb_false_elim in Hany as [-> _]. reflexivity. }
  unfold merge_frames. cbv zeta. fold l.
  rewrite all_forallb, any_existsb, Hall, Hany. cbn [negb].
  destruct (negb (all (map (fun c => is_equivalent_frame (frame c) (frame c1))
                           (c2 :: cs)))).
  - exists ic. split; [now right |].
    cbn [distances_of]. rewrite !map_map.
    split; intros ->; [| reflexivity].
    eexists. split; [reflexivity |]. cbn [distances_of angles].
    now rewrite combine_map_pair.
  - exists (fun c => c). split; [now left |].
    cbn [distances_of].
    split; intros H;
      [change (same_physical_type (map distance l) = true) in H
      | change (same_physical_type (map distance l) = false) in H];
      rewrite H; [| reflexivity].
    eexists. split; [reflexivity |]. cbn [distances_of angles].
    now rewrite combine_map_pair.
Qed.

Lemma reconcile_all_with_distance_witness :
  exists conv,
    (conv = (fun c => c) \/ conv = sample_icrs)
    /\ (same_physical_type
          (map (fun c => distance (conv c))
               [unit_distance_star;
                mkSkyCoord ICRS 30 40 (Some (mkQuantity 2 dimensionless))])
        = true ->
        exists r,
          reconcile sample_icrs
            (map OSkyCoord
               [unit_distance_star;
                mkSkyCoord ICRS 30 40 (Some (mkQuantity 2 dimensionless))])
          = Ok r
          /\ distances_of r
             = map (fun c => distance (conv c))
                   [unit_distance_star;
                    mkSkyCoord ICRS 30 40 (Some (mkQuantity 2 dimensionless))]
          /\ angles r
             = map (fun c => (lon (conv c), lat (conv c)))
                   [unit_distance_star;
                    mkSkyCoord ICRS 30 40 (Some (mkQuantity 2 dimensionless))])
    /\ (same_physical_type
          (map (fun c => distance (conv c))
               [unit_distance_star;
                mkSkyCoord ICRS 30 40 (Some (mkQuantity 2 dimensionless))])
        = false ->
        reconcile sample_icrs
          (map OSkyCoord
             [unit_distance_star;
              mkSkyCoord ICRS 30 40 (Some (mkQuantity 2 dimensionless))])
        = Raise UnitConversionError).
Proof.
  apply (reconcile_all_with_distance sample_icrs
           [unit_distance_star;
            mkSkyCoord ICRS 30 40 (Some (mkQuantity 2 dimensionless))]).
  - simpl. lia.
  - reflexivity.
  - reflexivity.
Defined.

(** When all of two or more merged positions are angle-only, the result is
    built from longitudes and latitudes alone: it has no distances. *)
Theorem reconcile_all_angle_only :
  forall icrs (cs : list SkyCoord),
    2 <= List.length cs ->
    forallb is_unitspherical cs = true ->
    exists longitudes latitudes f,
      reconcile icrs (map OSkyCoord cs)
      = Ok (SkyCoord_lonlat longitudes latitudes f)
      /\ List.length longitudes = List.length cs
      /\ List.length latitudes = List.length cs.
Proof.
  intros ic cs Hlen Hall.
  destruct cs as [| c1 [| c2 cs]]; simpl in Hlen; try lia.
  rewrite reconcile_several.
  set (l := c1 :: c2 :: cs) in *.
  unfold merge_frames. cbv zeta. fold l.
  rewrite all_forallb, Hall.
  do 3 eexists. split; [reflexivity |].
  destruct (negb (all (map (fun c => is_equivalent_frame (frame c) (frame c1))
                           (c2 :: cs))));
    now rewrite !length_map.
Qed.

Lemma reconcile_all_angle_only_witness :
  exists longitudes latitudes f,
    reconcile sample_icrs (map OSkyCoord [sirius; galactic_point])
    = Ok (SkyCoord_lonlat longitudes latitudes f)
    /\ List.length longitudes = 2
    /\ List.length latitudes = 2.
Proof.
  apply (reconcile_all_angle_only sample_icrs [sirius; galactic_point]).
  - simpl. lia.
  - reflexivity.
Defined.

(** ** The frame of the merge *)

(** The merge of two or more scalar positions whose collected distances are
    of one physical type returns: if the frames are all equivalent to the
    first one's, the result is in that frame with the positions' own angles,
    and the ICRS conversion is not used; as soon as one frame differs, every
    position is converted and the result is in ICRS. *)
Theorem reconcile_frame :
  forall icrs c1 c2 (cs : list SkyCoord),
    scalar_positions (c1 :: c2 :: cs) = true ->
    same_physical_type (merged_distances icrs (c1 :: c2 :: cs)) = true ->
    exists r,
      reconcile icrs (map OSkyCoord (c1 :: c2 :: cs)) = Ok r
      /\ if forallb (fun c => is_equivalent_frame (frame c) (frame c1)) (c2 :: cs)
         then frame_of r = Some (frame c1)
              /\ angles r = map (fun c => (lon c, lat c)) (c1 :: c2 :: cs)
         else frame_of r = Some ICRS
              /\ angles r
                 = map (fun c => (lon (icrs c), lat (icrs c))) (c1 :: c2 :: cs).
Proof.
  intros ic c1 c2 cs _ Hunits.
  exists (merge_frames ic c1 (c2 :: cs)). split.
  { rewrite reconcile_several, SkyCoord_call_merge.
    unfold merged_distances in Hunits. now rewrite Hunits. }
  clear Hunits.
  unfold merge_frames. cbv zeta.
  rewrite (all_forallb (fun c => is_equivalent_frame (frame c) (frame c1))).
  set (l := c1 :: c2 :: cs).
  destruct (forallb (fun c => is_equivalent_frame (frame c) (frame c1)) (c2 :: cs));
    cbn [negb];
    destruct (all (map is_unitspherical l));
    try destruct (negb (any (map is_unitspherical l)));
    cbn [frame_of angles]; rewrite ?combine_map_pair, ?map_map;
    split; reflexivity.
Qed.

Lemma reconcile_frame_witness :
  exists r,
    reconcile sample_icrs (map OSkyCoord [near_star; galactic_point]) = Ok r
    /\ frame_of r = Some ICRS
    /\ angles r
       = map (fun c => (lon (sample_icrs c), lat (sample_icrs c)))
             [near_star; galactic_point].
Proof.
  apply (reconcile_frame sample_icrs near_star galactic_point []);
    reflexivity.
Defined.

(** ** What the resolution does not consult *)

Lemma resolve_each_ext get_body get_body' target_size times observer observer' :
  forall targets,
    (forall o, In o targets ->
       forall i coords,
         visit get_body target_size times observer i o coords
         = visit get_body' target_size times observer' i o coords) ->
    forall i coords,
      resolve_each get_body target_size times observer i targets coords
      = resolve_each get_body' target_size times observer' i targets coords.
Proof.
  induction targets as [| o targets IH]; intros H i coords; simpl; [reflexivity |].
  rewrite (H o (or_introl eq_refl)).
  destruct (visit get_body' target_size times observer' i o coords); simpl;
    [| reflexivity].
  apply IH. intros o' Ho'. apply H. now right.
Qed.

(** The ephemeris service is consulted for [SolarSystemTarget]s only: a call
    whose targets hold none has the same outcome with any two services. *)
Theorem get_skycoord_ephemeris_unused :
  forall get_body get_body' icrs targets times observer,
    existsb isinstance_SolarSystemTarget (as_list targets) = false ->
    get_skycoord get_body icrs targets times observer
    = get_skycoord get_body' icrs targets times observer.
Proof.
  intros gb gb' ic targets times observer H.
  unfold get_skycoord. cbv zeta.
  rewrite (resolve_each_ext gb gb' (target_size_of targets) times observer observer);
    [reflexivity |].
  intros o Ho i coords.
  assert (isinstance_SolarSystemTarget o = false) as Hs.
  { destruct (isinstance_SolarSystemTarget o) eqn:E; [| reflexivity].
    assert (existsb isinstance_SolarSystemTarget (as_list targets) = true)
      by (apply existsb_exists; now exists o).
    congruence. }
  destruct o as [[c n | | ce | eph n] | c]; simpl in Hs; try discriminate;
    reflexivity.
Qed.

Lemma get_skycoord_ephemeris_unused_witness :
  get_skycoord sample_get_body sample_icrs
    (TargetList [OTarget (ConstantElevationTarget scan);
                 OTarget (FixedTarget sirius None)])
    (Some (TimeScalar 9)) (Some site)
  = get_skycoord (fun _ _ _ => Raise (KeyError "no ephemeris")) sample_icrs
      (TargetList [OTarget (ConstantElevationTarget scan);
                   OTarget (FixedTarget sirius None)])
      (Some (TimeScalar 9)) (Some site).
Proof.
  apply get_skycoord_ephemeris_unused. reflexivity.
Defined.

(** The observer is read for on-demand targets only: a call whose targets
    hold neither a [ConstantElevationTarget] nor a [SolarSystemTarget] has the
    same outcome with any observer, or with none. *)
Theorem get_skycoord_observer_unused :
  forall get_body icrs targets times observer observer',
    existsb on_demand (as_list targets) = false ->
    get_skycoord get_body icrs targets times observer
    = get_skycoord get_body icrs targets times observer'.
Proof.
  intros gb ic targets times observer observer' H.
  unfold get_skycoord. cbv zeta.
  rewrite (resolve_each_ext gb gb (target_size_of targets) times observer observer');
    [reflexivity |].
  intros o Ho i coords.
  assert (on_demand o = false) as Hs.
  { destruct (on_demand o) eqn:E; [| reflexivity].
    assert (existsb on_demand (as_list targets) = true)
      by (apply existsb_exists; now exists o).
    congruence. }
  destruct o as [[c n | | ce | eph n] | c]; simpl in Hs; try discriminate;
    reflexivity.
Qed.

Lemma get_skycoord_observer_unused_witness :
  get_skycoord sample_get_body sample_icrs
    (TargetList [OTarget (FixedTarget sirius None); OSkyCoord near_star])
    (Some (TimeArray [1; 2]%Z)) (Some site)
  = get_skycoord sample_get_body sample_icrs
      (TargetList [OTarget (FixedTarget sirius None); OSkyCoord near_star])
      (Some (TimeArray [1; 2]%Z)) None.
Proof.
  apply get_skycoord_observer_unused. reflexivity.
Defined.

(** ** The fields of a constant-elevation target that matter *)

Lemma sweep_same_direction ce ce' time observer :
  alt ce = alt ce' -> az_min ce = az_min ce' ->
  forall indices coords,
    sweep ce time observer indices coords = sweep ce' time observer indices coords.
Proof.
  intros Ha Hz. induction indices as [| i indices IH]; intros coords; simpl;
    [reflexivity |].
  destruct (Time_getitem time i); simpl; [| reflexivity].
  destruct (observer_location observer); simpl; [| reflexivity].
  unfold altaz_coord. rewrite Ha, Hz. apply IH.
Qed.

Lemma resolve_each_swap get_body target_size times observer a b post :
  (forall i coords,
     visit get_body target_size times observer i a coords
     = visit get_body target_size times observer i b coords) ->
  forall pre i coords,
    resolve_each get_body target_size times observer i (pre ++ a :: post) coords
    = resolve_each get_body target_size times observer i (pre ++ b :: post) coords.
Proof.
  intros H. induction pre as [| o pre IH]; intros i coords; simpl.
  - now rewrite H.
  - destruct (visit get_body target_size times observer i o coords);
      simpl; [apply IH | reflexivity].
Qed.

(** Of a [ConstantElevationTarget] the resolution reads [alt] and [az_min]
    only: two such targets that agree on these two (whatever their [az_max],
    name, [ramin], [decc], [alt_var], [min_alt] and [max_alt]) can replace
    each other, alone or anywhere in a list, without changing the outcome. *)
Theorem get_skycoord_constant_elevation_fields :
  forall get_body icrs ce ce' pre post times observer,
    alt ce = alt ce' ->
    az_min ce = az_min ce' ->
    get_skycoord get_body icrs
      (TargetList (pre ++ OTarget (ConstantElevationTarget ce) :: post))
      times observer
    = get_skycoord get_body icrs
        (TargetList (pre ++ OTarget (ConstantElevationTarget ce') :: post))
        times observer
    /\ get_skycoord get_body icrs
         (Single (OTarget (ConstantElevationTarget ce))) times observer
       = get_skycoord get_body icrs
           (Single (OTarget (ConstantElevationTarget ce'))) times observer.
Proof.
  intros gb ic ce ce' pre post times observer Ha Hz.
  assert (forall target_size i coords,
            visit gb target_size times observer i
                  (OTarget (ConstantElevationTarget ce)) coords
            = visit gb target_size times observer i
                    (OTarget (ConstantElevationTarget ce')) coords) as Hv.
  { intros target_size i coords. unfold visit.
    destruct (select_time times target_size i) as [[tm |] | e]; simpl;
      try reflexivity.
    destruct (Time_size tm =? 1).
    - unfold altaz_coord. now rewrite Ha, Hz.
    - destruct (times_size times); simpl; [| reflexivity].
      now apply sweep_same_direction. }
  split.
  - unfold get_skycoord. simpl. rewrite !length_app. simpl.
    rewrite (resolve_each_swap gb _ times observer _ _ post (Hv _)).
    replace (returns_directly (List.length pre + S (List.length post))
               (pre ++ OTarget (ConstantElevationTarget ce') :: post) times)
      with (returns_directly (List.length pre + S (List.length post))
              (pre ++ OTarget (ConstantElevationTarget ce) :: post) times)
      by (destruct pre; reflexivity).
    reflexivity.
  - unfold get_skycoord. simpl. now rewrite Hv.
Qed.

Lemma get_skycoord_constant_elevation_fields_witness :
  get_skycoord sample_get_body sample_icrs
    (Single (OTarget (ConstantElevationTarget scan)))
    (Some (TimeArray [1; 2]%Z)) (Some site)
  = get_skycoord sample_get_body sample_icrs
      (Single (OTarget (ConstantElevationTarget
         (mkConstantElevation 45 10 350 None (Some 12%Q) (Some (-30)%Q) true
            (Some 40%Q) (Some 50%Q)))))
      (Some (TimeArray [1; 2]%Z)) (Some site).
Proof.
  apply (get_skycoord_constant_elevation_fields sample_get_body sample_icrs
           scan
           (mkConstantElevation 45 10 350 None (Some 12%Q) (Some (-30)%Q) true
              (Some 40%Q) (Some 50%Q))
           [] []); reflexivity.
Defined.

(** ** Targets that carry their position and the times *)

Lemma select_time_compatible target_size (times : Time) k :
  Time_size times = 1 \/ k < Time_size times ->
  exists tm, select_time (Some times) target_size k = Ok tm.
Proof.
  intros H. unfold select_time.
  destruct ((Time_size times =? 1) || (target_size =? 1)) eqn:E;
    [eexists; reflexivity |].
  apply orb_false_elim in E as [E _]. apply Nat.eqb_neq in E.
  destruct H as [H | H]; [contradiction |].
  destruct times as [t | ts]; simpl in *; [lia |].
  destruct (nth_error ts k) eqn:En; simpl; [eexists; reflexivity |].
  apply nth_error_None in En. lia.
Qed.

Lemma resolve_each_times_unused get_body target_size (times : Time) observer :
  target_size <> 1 ->
  forall targets i coords,
    existsb on_demand targets = false ->
    Time_size times = 1 \/ i + List.length targets <= Time_size times ->
    resolve_each get_body target_size (Some times) observer i targets coords
    = resolve_each get_body target_size None observer i targets coords.
Proof.
  intros Hn. induction targets as [| o targets IH]; intros i coords Hd Hs;
    simpl; [reflexivity |].
  simpl in Hd. apply orb_false_elim in Hd as [Ho Hd].
  assert (visit get_body target_size (Some times) observer i o coords
          = visit get_body target_size None observer i o coords) as ->.
  { unfold visit.
    destruct (select_time_compatible target_size times i) as (tm & ->).
    { destruct Hs as [Hs | Hs]; [now left | right; simpl in Hs; lia]. }
    simpl.
    destruct o as [[c n | | ce | eph n] | c]; simpl in Ho; try discriminate;
      eqb_false; reflexivity. }
  destruct (visit get_body target_size None observer i o coords); simpl;
    [| reflexivity].
  apply IH; [exact Hd |].
  destruct Hs as [Hs | Hs]; [now left | right; simpl in Hs; lia].
Qed.

(** For two or more targets (or none) of which none is evaluated on demand,
    times whose size broadcasts (1, or the number of targets) have no
    influence: the outcome is that of the call without times. *)
Theorem get_skycoord_times_unused :
  forall get_body icrs (targets : list pyobj) (times : Time) observer,
    List.length targets <> 1 ->
    Time_size times = 1 \/ Time_size times = List.length targets ->
    existsb on_demand targets = false ->
    get_skycoord get_body icrs (TargetList targets) (Some times) observer
    = get_skycoord get_body icrs (TargetList targets) None observer.
Proof.
  intros gb ic targets times observer Hn Hs Hd.
  unfold get_skycoord. simpl.
  assert (negb (List.length targets =? 1) && negb (Time_size times =? 1)
          && negb (List.length targets =? Time_size times) = false) as ->.
  { destruct Hs as [-> | ->]; simpl.
    - now rewrite andb_false_r.
    - now rewrite Nat.eqb_refl, andb_false_r. }
  simpl.
  rewrite (resolve_each_times_unused gb _ times observer Hn targets 0 [] Hd)
    by (destruct Hs as [Hs | Hs]; [now left | right; simpl; lia]).
  unfold returns_directly. now eqb_false.
Qed.

Lemma get_skycoord_times_unused_witness :
  get_skycoord sample_get_body sample_icrs
    (TargetList [OTarget (FixedTarget sirius None); OSkyCoord near_star])
    (Some (TimeArray [1; 2]%Z)) None
  = get_skycoord sample_get_body sample_icrs
      (TargetList [OTarget (FixedTarget sirius None); OSkyCoord near_star])
      None None.
Proof.
  apply get_skycoord_times_unused.
  - simpl. lia.
  - right. reflexivity.
  - reflexivity.
Defined.

(** ** The length of the result *)

Lemma visit_appends_one get_body target_size times observer i o coords coords' :
  target_size <> 1 ->
  visit get_body target_size times observer i o coords = Ok coords' ->
  List.length coords' = S (List.length coords).
Proof.
  intros Hn. unfold visit.
  destruct (select_time times target_size i) as [time | e] eqn:E; simpl;
    [| discriminate].
  assert (forall x, coords ++ [x] = coords' ->
                    List.length coords' = S (List.length coords)) as Hone.
  { intros x <-. rewrite length_app. simpl. lia. }
  destruct o as [[c n | | ce | eph n] | c]; eqb_false.
  - intros [= H]. now apply Hone in H.
  - intros [= H]. now apply Hone in H.
  - destruct time as [tm |]; [| discriminate].
    assert (Time_size tm = 1) as ->.
    { destruct times as [ts |]; [| discriminate].
      now apply (select_time_scalar target_size ts i tm Hn). }
    simpl. destruct (observer_location observer); simpl; [| discriminate].
    intros [= H]. now apply Hone in H.
  - destruct time as [tm |]; [| discriminate].
    destruct (observer_location observer); simpl; [| discriminate].
    destruct (get_body _ _ _); simpl; [| discriminate].
    intros [= H]. now apply Hone in H.
  - intros [= H]. now apply Hone in H.
Qed.

Lemma resolve_each_length get_body target_size times observer :
  target_size <> 1 ->
  forall targets i coords coords',
    resolve_each get_body target_size times observer i targets coords = Ok coords' ->
    List.length coords' = List.length coords + List.length targets.
Proof.
  intros Hn. induction targets as [| o targets IH]; intros i coords coords' H;
    simpl in *.
  - injection H as <-. lia.
  - destruct (visit get_body target_size times observer i o coords)
      as [mid |] eqn:E; simpl in H; [| discriminate].
    apply (visit_appends_one _ _ _ _ _ _ _ _ Hn) in E.
    apply IH in H. lia.
Qed.

Lemma as_skycoords_length (coords : list pyobj) :
  forall cs, as_skycoords coords = Ok cs -> List.length cs = List.length coords.
Proof.
  induction coords as [| [t | c] coords IH]; intros cs H; simpl in *.
  - injection H as <-. reflexivity.
  - discriminate.
  - destruct (as_skycoords coords) as [cs' |]; simpl in H; [| discriminate].
    injection H as <-. simpl. now rewrite (IH cs' eq_refl).
Qed.

Lemma unpack_all_length :
  forall coords rows,
    unpack_all coords = Some rows -> List.length rows = List.length coords.
Proof.
  induction coords as [| o coords IH]; intros rows H; simpl in H.
  - injection H as <-. reflexivity.
  - destruct (unpack o) as [row |]; [| discriminate].
    destruct (unpack_all coords) as [rows' |]; [| discriminate].
    injection H as <-. simpl. now rewrite (IH rows' eq_refl).
Qed.

Lemma concat_single_rows {A : Type} (n : nat) :
  forall rows : list (list A),
    forallb (fun r => List.length r =? n) rows = true ->
    List.length (List.concat rows) = List.length rows * n.
Proof.
  induction rows as [| row rows IH]; intros H; simpl in *; [reflexivity |].
  apply andb_true_iff in H as [Hrow H]. apply Nat.eqb_eq in Hrow.
  rewrite length_app, (IH H), Hrow. reflexivity.
Qed.

(** Line 372 keeps the number of entries of a list of no or several
    objects. *)
Lemma squeeze_tolist_length (coords coords' : list pyobj) :
  List.length coords <> 1 ->
  squeeze_tolist coords = Ok coords' ->
  List.length coords' = List.length coords.
Proof.
  intros Hn. unfold squeeze_tolist.
  destruct (forallb is_scalar coords); [now intros [= <-] |].
  destruct (unpack_all coords) as [[| row more] |] eqn:E; [| | discriminate].
  - apply unpack_all_length in E. intros [= <-]. exact E.
  - apply unpack_all_length in E. simpl in E.
    destruct (forallb (fun r => List.length r =? List.length row) more) eqn:Hrows;
      simpl; [| discriminate].
    destruct more as [| row' more]; [simpl in E; lia |].
    destruct (List.length row =? 1) eqn:Hone; [| discriminate].
    apply Nat.eqb_eq in Hone. intros [= <-].
    change (List.length (List.concat (row :: row' :: more)) = List.length coords).
    rewrite (concat_single_rows 1 (row :: row' :: more)).
    + rewrite <- E. simpl. lia.
    + rewrite Hone in Hrows. cbn [forallb]. rewrite Hone. exact Hrows.
Qed.

Lemma reconcile_length icrs (coords : list pyobj) r :
  reconcile icrs coords = Ok r -> seq_length r = List.length coords.
Proof.
  destruct coords as [| a [| b rest]]; try discriminate.
  unfold reconcile.
  destruct (as_skycoords (a :: b :: rest)) as [cs |] eqn:E; simpl;
    [| discriminate].
  apply as_skycoords_length in E.
  destruct cs as [| first others]; [discriminate |].
  intros H. apply SkyCoord_call_ok in H. subst r.
  destruct (merge_frames_by_index icrs first others) as [Hl _].
  rewrite Hl. simpl in E. exact E.
Qed.

(** Whenever a call on a list of two or more targets returns, the sequence
    it returns has exactly one entry per target, whatever the kinds of the
    targets and the size of [times]. *)
Theorem get_skycoord_list_length :
  forall get_body icrs (targets : list pyobj) times observer r,
    List.length targets <> 1 ->
    get_skycoord get_body icrs (TargetList targets) times observer = Ok r ->
    seq_length r = List.length targets.
Proof.
  intros gb ic targets times observer r Hn H.
  unfold get_skycoord in H. simpl in H.
  destruct (match times with
            | Some ts =>
                if negb (List.length targets =? 1) && negb (Time_size ts =? 1)
                   && negb (List.length targets =? Time_size ts)
                then Raise (ValueError broadcast_msg) else Ok tt
            | None => Ok tt
            end) as [[] | e]; simpl in H; [| discriminate].
  destruct (resolve_each gb (List.length targets) times observer 0 targets [])
    as [coords |] eqn:E; simpl in H; [| discriminate].
  unfold returns_directly in H. revert H. eqb_false. simpl. intros H.
  apply (resolve_each_length gb _ times observer Hn) in E. simpl in E.
  destruct (squeeze_tolist coords) as [coords' |] eqn:Es; cbn [bind] in H;
    [| discriminate].
  apply squeeze_tolist_length in Es; [| lia].
  apply reconcile_length in H. lia.
Qed.

Lemma get_skycoord_list_length_witness :
  get_skycoord sample_get_body sample_icrs
    (TargetList [OTarget (SolarSystemTarget "moon" None);
                 OTarget (FixedTarget sirius None);
                 OTarget (ConstantElevationTarget scan)])
    (Some (TimeScalar 3)) (Some site)
  = Ok (SkyCoord_lonlatdist [120; lon sirius; az_min scan]%Q
          [15; lat sirius; alt scan]%Q
          [mkQuantity 0.00257 AU; sentinel_distance; sentinel_distance] ICRS)
  /\ seq_length
       (SkyCoord_lonlatdist [120; lon sirius; az_min scan]%Q
          [15; lat sirius; alt scan]%Q
          [mkQuantity 0.00257 AU; sentinel_distance; sentinel_distance] ICRS)
     = 3.
Proof.
  split; [reflexivity |].
  apply (get_skycoord_list_length sample_get_body sample_icrs
           [OTarget (SolarSystemTarget "moon" None);
            OTarget (FixedTarget sirius None);
            OTarget (ConstantElevationTarget scan)]
           (Some (TimeScalar 3)) (Some site)).
  - simpl. lia.
  - reflexivity.
Defined.

(** ** Fixed targets without times *)




(** ** Name lookup, online and offline *)

(** [from_name] names the target after the query unless a name is given,
    stores the position the resolver answers, and passes the resolver's error
    on unchanged. *)
Theorem from_name_result :
  forall SkyCoord_from_name query_name,
    (forall c, SkyCoord_from_name query_name = Ok c ->
       from_name SkyCoord_from_name query_name None
       = Ok (FixedTarget c (Some query_name))
       /\ forall n, from_name SkyCoord_from_name query_name (Some n)
                    = Ok (FixedTarget c (Some n)))
    /\ (forall e, SkyCoord_from_name query_name = Raise e ->
          forall name, from_name SkyCoord_from_name query_name name = Raise e).
Proof.
  intros resolver q. split.
  - intros c H. unfold from_name. rewrite H. split; [| intros n]; reflexivity.
  - intros e H name. unfold from_name. now rewrite H.
Qed.

Lemma from_name_result_witness :
  from_name (fun q => if String.eqb q "Sirius" then Ok sirius
                      else Raise (ValueError "Unable to find coordinates"))
            "Sirius" (Some "Dog Star")
  = Ok (FixedTarget sirius (Some "Dog Star"))
  /\ from_name (fun q => if String.eqb q "Sirius" then Ok sirius
                         else Raise (ValueError "Unable to find coordinates"))
               "Nowhere" None
     = Raise (ValueError "Unable to find coordinates").
Proof.
  split.
  - apply (proj1 (from_name_result _ "Sirius") sirius eq_refl).
  - apply (proj2 (from_name_result _ "Nowhere") _ eq_refl).
Defined.

(** The offline table is no drop-in for [from_name] when a name is given:
    for a query found in the table and a resolver answering the table's
    coordinates, the two agree when [name] is omitted, and with [name=n] they
    agree only if [n] is the query itself, because [_from_name_mock] names
    the target after the query and never reads [name]. *)
Theorem from_name_mock_versus_from_name :
  forall SkyCoord_from_name query_name k radec n,
    In (k, radec) stars ->
    eq_nocase query_name k ->
    SkyCoord_from_name query_name = Ok (SkyCoord_ra_dec radec) ->
    _from_name_mock query_name None = from_name SkyCoord_from_name query_name None
    /\ (_from_name_mock query_name (Some n)
        = from_name SkyCoord_from_name query_name (Some n)
        <-> n = query_name).
Proof.
  intros resolver q k radec n Hin Heq Hres.
  destruct (stars_entry k radec Hin) as (Hk & Hc & Hg).
  unfold eq_nocase in Heq. rewrite Hk in Heq.
  assert (forall name, _from_name_mock q name
                       = Ok (FixedTarget (SkyCoord_ra_dec radec) (Some q))) as Hm.
  { intros name. unfold _from_name_mock. now rewrite Heq, Hc, Hg. }
  unfold from_name. rewrite Hres, !Hm. simpl. split; [reflexivity |].
  split.
  - intros [= H]. now symmetry.
  - now intros ->.
Qed.

Lemma from_name_mock_versus_from_name_witness :
  _from_name_mock "Vega" None
  = from_name (fun _ => Ok (SkyCoord_ra_dec (279.23473479, 38.78368896)%Q))
              "Vega" None
  /\ (_from_name_mock "Vega" (Some "alpha Lyr")
      = from_name (fun _ => Ok (SkyCoord_ra_dec (279.23473479, 38.78368896)%Q))
                  "Vega" (Some "alpha Lyr")
      <-> "alpha Lyr" = "Vega").
Proof.
  apply (from_name_mock_versus_from_name _ "Vega" "vega"
           (279.23473479, 38.78368896)%Q "alpha Lyr").
  - simpl. right. right. left. reflexivity.
  - reflexivity.
  - reflexivity.
Defined.

(** A target found by [_from_name_mock] answers [ra] and [dec] with the
    right ascension and declination of its table entry. *)
Theorem from_name_mock_ra_dec :
  forall query_name name k radec,
    In (k, radec) stars ->
    eq_nocase query_name k ->
    (t <- _from_name_mock query_name name ;; ra t) = Ok (fst radec)
    /\ (t <- _from_name_mock query_name name ;; dec t) = Ok (snd radec).
Proof.
  intros q name k radec Hin Heq.
  destruct (stars_entry k radec Hin) as (Hk & Hc & Hg).
  unfold eq_nocase in Heq. rewrite Hk in Heq.
  unfold _from_name_mock. rewrite Heq, Hc, Hg. split; reflexivity.
Qed.

Lemma from_name_mock_ra_dec_witness :
  (t <- _from_name_mock "POLARIS" None ;; ra t) = Ok 37.95456067%Q
  /\ (t <- _from_name_mock "POLARIS" None ;; dec t) = Ok 89.26410897%Q.
Proof.
  apply (from_name_mock_ra_dec "POLARIS" None "polaris"
           (37.95456067, 89.26410897)%Q).
  - simpl. do 4 right. left. reflexivity.
  - reflexivity.
Defined.
